(** * useExpenses: the expenses hook of the admin panel

    A shallow embedding of [src/app/(admin)/expenses/_hooks/use-expenses.ts].

    The hook composes the generated query and mutation hooks of the expenses
    API with toast notifications.  Everything it does is an effect on its
    surroundings (a request handed to a generated trigger, a toast, a DOM
    operation), so the embedding threads a log of such events through an
    exception monad: a computation takes the events that happened so far and
    returns the extended log together with the way its promise settles.

    One call of an action is followed from its start to the point where its
    promise has settled and the toast attached to it has been updated; other
    tasks of the page are not interleaved.  Toasts and browser calls are taken
    not to throw. *)

From Stdlib Require Import String List Arith.
Import ListNotations.
Local Open Scope string_scope.
Local Open Scope list_scope.

Set Implicit Arguments.

(** ** What the hook takes from its surroundings

    The DTOs of [../_types/expenses], the payloads of the server's responses,
    browser values and the errors of the query library are opaque to the hook:
    it moves them around and reads [message] of an error. *)

Class Externals : Type := {
  CreateHotelExpenseDto : Type;
  UpdateHotelExpenseDto : Type;
  HotelExpense : Type;
  CreateData : Type;
  UpdateData : Type;
  DeleteData : Type;
  ImportData : Type;
  File : Type;
  Blob : Type;
  Url : Type;
  Refetch : Type;
  Error : Type;
  (* err.message *)
  err_message : Error -> string;
  (* window.URL.createObjectURL(blob) *)
  createObjectURL : Blob -> Url;
  (* the error runAndHandleError rejects with when its callback rejects
     with the given one *)
  handleError : Error -> Error
}.

(** The envelope of a server response; the hook reads [data] and [message]. *)
Module Response.
Record envelope (D : Type) : Type := {
  data : D;
  message : option string
}.
End Response.

Definition ApiResponse (D : Type) : Type := Response.envelope D.

(** [{ id, body: data }] *)
Record UpdateExpenseArg `{Externals} : Type := {
  id : string;
  body : UpdateHotelExpenseDto
}.

(** [DeleteHotelExpenseDto], built as [{ ids }] *)
Record DeleteHotelExpenseDto : Type := {
  ids : list string
}.

(** [{ file, continueOnError }] *)
Record ImportExpensesArg `{Externals} : Type := {
  file : File;
  continueOnError : bool
}.

(** How a promise settles. *)
Inductive Settled `{Externals} (A : Type) : Type :=
| Fulfilled (v : A)
| Rejected (e : Error).

Arguments Fulfilled {_ A} v.
Arguments Rejected {_ A} e.

(** The fields the hook destructures from a generated query hook. *)
Module Query.
Record result `{Externals} (D : Type) : Type := {
  data : option D;
  error : option Error;
  isLoading : bool;
  isSuccess : bool;
  refetch : Refetch
}.
End Query.

(** The status object beside a mutation trigger. *)
Module Mutation.
Record state : Type := {
  isSuccess : bool;
  isLoading : bool
}.
End Mutation.

(** The status object beside a lazy query trigger. *)
Module LazyQuery.
Record state : Type := {
  isLoading : bool
}.
End LazyQuery.

(** What [useGetExpenseById] returns. *)
Module ById.
Record result `{Externals} : Type := {
  expense : option HotelExpense;
  isLoading : bool;
  error : option Error
}.
End ById.

Section Effects.
Context `{Externals}.

(** A request handed to a generated trigger. *)
Inductive Request : Type :=
| ReqCreate (data : CreateHotelExpenseDto)
| ReqUpdate (arg : UpdateExpenseArg)
| ReqDelete (dto : DeleteHotelExpenseDto)
| ReqImport (arg : ImportExpensesArg)
| ReqDownloadTemplate.

Inductive ToastKind : Type := TLoading | TSuccess | TError.

(** The calls on [window.URL], [document] and the anchor element. *)
Inductive DomOp : Type :=
| CreateObjectURL (blob : Blob)
| CreateElement (tag : string)
| SetHref (url : Url)
| SetDownload (name : string)
| AppendChild
| Click
| RevokeObjectURL (url : Url)
| Remove.

(** A toast carries the identifier of the toast it opens or replaces. *)
Inductive Event : Type :=
| Sent (r : Request)
| Toast (k : ToastKind) (text : string) (toastId : nat)
| Dom (op : DomOp).

Definition World : Type := list Event.

(** An asynchronous computation, run to the point where it settles. *)
Definition Async (A : Type) : Type := World -> World * Settled A.

Definition ret {A} (v : A) : Async A := fun w => (w, Fulfilled v).

Definition bind {A B} (m : Async A) (k : A -> Async B) : Async B :=
  fun w =>
    match m w with
    | (w', Fulfilled v) => k v w'
    | (w', Rejected e) => (w', Rejected e)
    end.

(** [try { body } catch (error) { handler }] *)
Definition try_catch {A} (body : Async A) (handler : Error -> Async A) : Async A :=
  fun w =>
    match body w with
    | (w', Fulfilled v) => (w', Fulfilled v)
    | (w', Rejected e) => handler e w'
    end.

Definition emit (e : Event) : Async unit := fun w => (w ++ [e], Fulfilled tt).

(** A promise value: calling an async function starts it, and the caller
    holds the promise whatever its outcome. *)
Definition Promise (A : Type) : Type := Settled A.

Definition start {A} (m : Async A) : Async (Promise A) :=
  fun w => let (w', r) := m w in (w', Fulfilled r).

(** [await promise] *)
Definition await {A} (p : Promise A) : Async A := fun w => (w, p).

(** The events a computation adds to the log, and how it settles. *)
Definition events_of {A} (m : Async A) (w : World) : list Event :=
  skipn (length w) (fst (m w)).

Definition result_of {A} (m : Async A) (w : World) : Settled A := snd (m w).
End Effects.

Declare Scope async_scope.
Delimit Scope async_scope with async.
Notation "x <- m ;; k" := (bind m (fun x => k))
  (at level 100, m at next level, right associativity) : async_scope.
Notation "m ;; k" := (bind m (fun _ => k))
  (at level 100, right associativity) : async_scope.
Local Open Scope async_scope.


(** ** The generated hooks of [../_services/expensesApi]

    A trigger is given by the way [trigger(arg).unwrap()] settles.  A mutation
    hook returns its trigger and a status object, a query hook its result. *)

Definition Trigger `{Externals} (Arg Res : Type) : Type := Arg -> Settled Res.

Record ExpensesApi `{Externals} : Type := {
  useGetAllExpensesQuery : Query.result (list HotelExpense);
  useGetExpenseByIdQuery : string -> Query.result HotelExpense;
  useCreateExpenseMutation :
    Trigger CreateHotelExpenseDto (ApiResponse CreateData) * Mutation.state;
  useUpdateExpenseMutation :
    Trigger UpdateExpenseArg (ApiResponse UpdateData) * Mutation.state;
  useDeleteExpensesMutation :
    Trigger DeleteHotelExpenseDto (ApiResponse DeleteData) * Mutation.state;
  useImportExpensesMutation :
    Trigger ImportExpensesArg (ApiResponse ImportData) * Mutation.state;
  useLazyDownloadExpenseTemplateQuery : Trigger unit Blob * LazyQuery.state
}.

Section Library.
Context `{Externals}.

(** [trigger(arg).unwrap()]: calling the trigger hands the request over, and
    the unwrapped promise settles the way the trigger says. *)
Definition unwrap {Res} (r : Request) (settles : Settled Res) : Async Res :=
  fun w => (w ++ [Sent r], settles).

Definition throw {A} (e : Error) : Async A := fun w => (w, Rejected e).

(** Modelled from the spec: [runAndHandleError] of [@/utils/baseQuery] is not
    among the sources.  The spec calls it the HTTP client's error-normalization
    helper, through which errors are forwarded: it runs its callback once,
    fulfils with the callback's value and rejects with the normalised error,
    [handleError e], the normalisation being left open. *)
Definition runAndHandleError {A} (fn : Async A) : Async A :=
  try_catch fn (fun e => throw (handleError e)).

(** [toast.loading(text)] opens a toast and returns its identifier, the
    position of the event in the log. *)
Definition toast_loading (text : string) : Async nat :=
  fun w => (w ++ [Toast TLoading text (length w)], Fulfilled (length w)).

(** [toast.success(text, { id })] *)
Definition toast_success (text : string) (toastId : nat) : Async unit :=
  emit (Toast TSuccess text toastId).

(** [toast.error(text, { id })] *)
Definition toast_error (text : string) (toastId : nat) : Async unit :=
  emit (Toast TError text toastId).

(** [toast.promise(promise, { loading, success, error })]: the loading toast
    at once, replaced by the success or the error toast when the promise
    settles.  A fixed success text is the constant function. *)
Definition toast_promise {A} (promise : Promise A) (loading : string)
    (success : A -> string) (error : Error -> string) : Async unit :=
  toastId <- toast_loading loading ;;
  match promise with
  | Fulfilled v => toast_success (success v) toastId
  | Rejected e => toast_error (error e) toastId
  end.

Definition dom (op : DomOp) : Async unit := emit (Dom op).

(** A parameter with a default value: an omitted argument is [None]. *)
Definition default_param {A} (default : A) (arg : option A) : A :=
  match arg with
  | Some v => v
  | None => default
  end.

(** [message || fallback] on an optional string: the empty string is falsy. *)
Definition or_else (m : option string) (fallback : string) : string :=
  match m with
  | None => fallback
  | Some EmptyString => fallback
  | Some s => s
  end.
End Library.

(** ** The hook *)

(** The object [useExpenses] returns, field by field. *)
Module Hook.
Record result `{Externals} : Type := {
  expensesList : option (list HotelExpense);
  expensesError : option Error;
  isLoadingExpenses : bool;
  isSuccessExpenses : bool;
  refetchExpenses : Refetch;
  useGetExpenseById : string -> ById.result;
  onCreateExpense : CreateHotelExpenseDto -> Async CreateData;
  onUpdateExpense : string -> UpdateHotelExpenseDto -> Async UpdateData;
  onDeleteExpenses : list string -> Async DeleteData;
  onImportExpenses : File -> option bool -> Async (ApiResponse ImportData);
  onDownloadTemplate : Async bool;
  isSuccessCreateExpense : bool;
  isLoadingCreateExpense : bool;
  isSuccessUpdateExpense : bool;
  isLoadingUpdateExpense : bool;
  isSuccessDeleteExpenses : bool;
  isLoadingDeleteExpenses : bool;
  isSuccessImportExpenses : bool;
  isLoadingImportExpenses : bool;
  isLoadingDownloadTemplate : bool
}.
End Hook.

Section UseExpenses.
Context `{Externals}.
Variable api : ExpensesApi.

(** The triggers, first components of what the mutation hooks return. *)
Definition createExpense (arg : CreateHotelExpenseDto) : Async (ApiResponse CreateData) :=
  unwrap (ReqCreate arg) (fst (useCreateExpenseMutation api) arg).

Definition updateExpense (arg : UpdateExpenseArg) : Async (ApiResponse UpdateData) :=
  unwrap (ReqUpdate arg) (fst (useUpdateExpenseMutation api) arg).

Definition deleteExpenses (arg : DeleteHotelExpenseDto) : Async (ApiResponse DeleteData) :=
  unwrap (ReqDelete arg) (fst (useDeleteExpensesMutation api) arg).

Definition importExpenses (arg : ImportExpensesArg) : Async (ApiResponse ImportData) :=
  unwrap (ReqImport arg) (fst (useImportExpensesMutation api) arg).

Definition downloadTemplate : Async Blob :=
  unwrap ReqDownloadTemplate (fst (useLazyDownloadExpenseTemplateQuery api) tt).

Definition useGetExpenseById (id : string) : ById.result :=
  let q := useGetExpenseByIdQuery api id in
  {| ById.expense := Query.data q;
     ById.isLoading := Query.isLoading q;
     ById.error := Query.error q |}.

Definition onCreateExpense (data : CreateHotelExpenseDto) : Async CreateData :=
  promise <- start (runAndHandleError
                      (response <- createExpense data ;;
                       ret (Response.data response))) ;;
  toast_promise promise
    "Creando gasto..."
    (fun _ => "Gasto creado con éxito")
    (fun err => err_message err) ;;
  await promise.

Definition onUpdateExpense (id : string) (data : UpdateHotelExpenseDto) : Async UpdateData :=
  promise <- start (runAndHandleError
                      (response <- updateExpense {| id := id; body := data |} ;;
                       ret (Response.data response))) ;;
  toast_promise promise
    "Actualizando gasto..."
    (fun _ => "Gasto actualizado exitosamente")
    (fun err => err_message err) ;;
  await promise.

Definition onDeleteExpenses (ids : list string) : Async DeleteData :=
  let deleteDto := {| ids := ids |} in
  promise <- start (runAndHandleError
                      (response <- deleteExpenses deleteDto ;;
                       ret (Response.data response))) ;;
  toast_promise promise
    "Eliminando gastos..."
    (fun _ => "Gastos eliminados con éxito")
    (fun err => err_message err) ;;
  await promise.

(** [continueOnError: boolean = false] *)
Definition onImportExpenses (file : File) (continueOnError : option bool)
    : Async (ApiResponse ImportData) :=
  let continueOnError := default_param false continueOnError in
  promise <- start (runAndHandleError
                      (response <- importExpenses
                                     {| file := file; continueOnError := continueOnError |} ;;
                       ret response)) ;;
  toast_promise promise
    "Importando gastos..."
    (fun data => or_else (Response.message data) "Importación completada con éxito")
    (fun err => err_message err) ;;
  await promise.

Definition onDownloadTemplate : Async bool :=
  toastId <- toast_loading "Descargando plantilla..." ;;
  try_catch
    (blob <- downloadTemplate ;;
     let url := createObjectURL blob in
     dom (CreateObjectURL blob) ;;
     dom (CreateElement "a") ;;
     dom (SetHref url) ;;
     dom (SetDownload "plantilla_gastos.xlsx") ;;
     dom AppendChild ;;
     dom Click ;;
     dom (RevokeObjectURL url) ;;
     dom Remove ;;
     toast_success "Plantilla descargada con éxito" toastId ;;
     ret true)
    (fun error =>
       toast_error ("Error al descargar: " ++ err_message error) toastId ;;
       ret false).

Definition useExpenses : Hook.result :=
  let q := useGetAllExpensesQuery api in
  {| Hook.expensesList := Query.data q;
     Hook.expensesError := Query.error q;
     Hook.isLoadingExpenses := Query.isLoading q;
     Hook.isSuccessExpenses := Query.isSuccess q;
     Hook.refetchExpenses := Query.refetch q;
     Hook.useGetExpenseById := useGetExpenseById;
     Hook.onCreateExpense := onCreateExpense;
     Hook.onUpdateExpense := onUpdateExpense;
     Hook.onDeleteExpenses := onDeleteExpenses;
     Hook.onImportExpenses := onImportExpenses;
     Hook.onDownloadTemplate := onDownloadTemplate;
     Hook.isSuccessCreateExpense := Mutation.isSuccess (snd (useCreateExpenseMutation api));
     Hook.isLoadingCreateExpense := Mutation.isLoading (snd (useCreateExpenseMutation api));
     Hook.isSuccessUpdateExpense := Mutation.isSuccess (snd (useUpdateExpenseMutation api));
     Hook.isLoadingUpdateExpense := Mutation.isLoading (snd (useUpdateExpenseMutation api));
     Hook.isSuccessDeleteExpenses := Mutation.isSuccess (snd (useDeleteExpensesMutation api));
     Hook.isLoadingDeleteExpenses := Mutation.isLoading (snd (useDeleteExpensesMutation api));
     Hook.isSuccessImportExpenses := Mutation.isSuccess (snd (useImportExpensesMutation api));
     Hook.isLoadingImportExpenses := Mutation.isLoading (snd (useImportExpensesMutation api));
     Hook.isLoadingDownloadTemplate :=
       LazyQuery.isLoading (snd (useLazyDownloadExpenseTemplateQuery api)) |}.
End UseExpenses.

(** ** Reading a log *)

Section Observations.
Context `{Externals}.

(** The requests handed to the triggers, in order. *)
Fixpoint requests_of (evs : list Event) : list Request :=
  match evs with
  | [] => []
  | Sent r :: rest => r :: requests_of rest
  | _ :: rest => requests_of rest
  end.

(** The toasts as the user sees them: kind and text, in order. *)
Fixpoint displayed (evs : list Event) : list (ToastKind * string) :=
  match evs with
  | [] => []
  | Toast k text _ :: rest => (k, text) :: displayed rest
  | _ :: rest => displayed rest
  end.

(** The browser operations, in order. *)
Fixpoint dom_ops (evs : list Event) : list DomOp :=
  match evs with
  | [] => []
  | Dom op :: rest => op :: dom_ops rest
  | _ :: rest => dom_ops rest
  end.

Definition is_terminal (t : ToastKind * string) : bool :=
  match fst t with
  | TLoading => false
  | TSuccess | TError => true
  end.

(** The success and error toasts among the displayed ones. *)
Definition terminal_toasts (evs : list Event) : list (ToastKind * string) :=
  filter is_terminal (displayed evs).

(** What the caller and the user see of a run: how the promise settles, the
    requests, the toasts and the browser operations.  The identifiers of the
    toasts, positions in the log, are left out. *)
Definition observed {A} (m : Async A) (w : World)
    : Settled A * list Request * list (ToastKind * string) * list DomOp :=
  let evs := events_of m w in
  (result_of m w, requests_of evs, displayed evs, dom_ops evs).

(** What the four mutation actions have in common: how the promise of
    [runAndHandleError(async () => f (await trigger(arg).unwrap()))] settles,
    and the toast that closes [toast.promise]. *)
Definition handled {Res A} (f : Res -> A) (settles : Settled Res) : Settled A :=
  match settles with
  | Fulfilled response => Fulfilled (f response)
  | Rejected e => Rejected (handleError e)
  end.

Definition closing_toast {A} (success : A -> string) (promise : Settled A)
    (toastId : nat) : Event :=
  match promise with
  | Fulfilled v => Toast TSuccess (success v) toastId
  | Rejected e => Toast TError (err_message e) toastId
  end.

(** The anchor-click download of a blob. *)
Definition download_steps (blob : Blob) : list DomOp :=
  [ CreateObjectURL blob; CreateElement "a"; SetHref (createObjectURL blob);
    SetDownload "plantilla_gastos.xlsx"; AppendChild; Click;
    RevokeObjectURL (createObjectURL blob); Remove ].

(** An error [e] is forwarded by a run when the promise rejects with [e] and
    an error toast shows [e.message]. *)
Definition forwards {A} (m : Async A) (w : World) (e : Error) : Prop :=
  result_of m w = Rejected e /\ In (TError, err_message e) (displayed (events_of m w)).

(** A run that only awaits one request and shows toasts, one of them terminal. *)
Definition await_and_toast_only (evs : list Event) : Prop :=
  length (requests_of evs) = 1 /\
  length (terminal_toasts evs) = 1 /\
  dom_ops evs = [].

(** The success text of the import as the specification words it: the
    message of the response, the fixed text when there is none. *)
Definition spec_import_success_text (response : ApiResponse ImportData) : string :=
  match Response.message response with
  | Some text => text
  | None => "Importación completada con éxito"
  end.
End Observations.

(** ** A concrete instance

    Strings for the DTOs, numbers for the payloads; an error is its message and
    the normalisation of [runAndHandleError] leaves it as it is. *)

Definition demo : Externals := {|
  CreateHotelExpenseDto := string;
  UpdateHotelExpenseDto := string;
  HotelExpense := string;
  CreateData := nat;
  UpdateData := nat;
  DeleteData := nat;
  ImportData := nat;
  File := string;
  Blob := string;
  Url := string;
  Refetch := unit;
  Error := string;
  err_message := fun e => e;
  createObjectURL := fun b => ("blob:" ++ b)%string;
  handleError := fun e => e
|}.

#[local] Existing Instance demo.

Definition idle : Mutation.state :=
  {| Mutation.isSuccess := false; Mutation.isLoading := false |}.

Definition no_expenses (D : Type) : Query.result (H := demo) D :=
  {| Query.data := None; Query.error := None; Query.isLoading := true;
     Query.isSuccess := false; Query.refetch := tt |}.

(** Every request succeeds; the import answers with the given message. *)
Definition api_ok (msg : option string) : ExpensesApi (H := demo) := {|
  useGetAllExpensesQuery := no_expenses _;
  useGetExpenseByIdQuery := fun _ => no_expenses _;
  useCreateExpenseMutation :=
    (fun _ => Fulfilled {| Response.data := 1; Response.message := Some "creado" |}, idle);
  useUpdateExpenseMutation :=
    (fun _ => Fulfilled {| Response.data := 2; Response.message := Some "actualizado" |}, idle);
  useDeleteExpensesMutation :=
    (fun _ => Fulfilled {| Response.data := 3; Response.message := Some "eliminados" |}, idle);
  useImportExpensesMutation :=
    (fun _ => Fulfilled {| Response.data := 4; Response.message := msg |}, idle);
  useLazyDownloadExpenseTemplateQuery :=
    (fun _ => Fulfilled "xlsx", {| LazyQuery.isLoading := false |})
|}.

(** The same answers while every hook reports a request in flight. *)
Definition busy : Mutation.state :=
  {| Mutation.isSuccess := false; Mutation.isLoading := true |}.

Definition api_ok_busy (msg : option string) : ExpensesApi (H := demo) := {|
  useGetAllExpensesQuery := useGetAllExpensesQuery (api_ok msg);
  useGetExpenseByIdQuery := useGetExpenseByIdQuery (api_ok msg);
  useCreateExpenseMutation := (fst (useCreateExpenseMutation (api_ok msg)), busy);
  useUpdateExpenseMutation := (fst (useUpdateExpenseMutation (api_ok msg)), busy);
  useDeleteExpensesMutation := (fst (useDeleteExpensesMutation (api_ok msg)), busy);
  useImportExpensesMutation := (fst (useImportExpensesMutation (api_ok msg)), busy);
  useLazyDownloadExpenseTemplateQuery :=
    (fst (useLazyDownloadExpenseTemplateQuery (api_ok msg)),
     {| LazyQuery.isLoading := true |})
|}.

(** Every request fails with the given error. *)
Definition api_failing (e : string) : ExpensesApi (H := demo) := {|
  useGetAllExpensesQuery := no_expenses _;
  useGetExpenseByIdQuery := fun _ => no_expenses _;
  useCreateExpenseMutation := (fun _ => Rejected e, idle);
  useUpdateExpenseMutation := (fun _ => Rejected e, idle);
  useDeleteExpensesMutation := (fun _ => Rejected e, idle);
  useImportExpensesMutation := (fun _ => Rejected e, idle);
  useLazyDownloadExpenseTemplateQuery :=
    (fun _ => Rejected e, {| LazyQuery.isLoading := false |})
|}.

(** ** Callers

    The components of the page call the actions from event handlers.  A
    handler that fires an action and leaves its promise alone goes on whatever
    becomes of the call; a handler that awaits the action stops at a rejection. *)

Section Callers.
Context `{Externals}.
Variable api : ExpensesApi.




End Callers.

Section ToastIdentifiers.
Context `{Externals}.

(** The identifiers the toasts of a log carry, in order. *)
Fixpoint toast_ids (evs : list Event) : list nat :=
  match evs with
  | [] => []
  | Toast _ _ toastId :: rest => toastId :: toast_ids rest
  | _ :: rest => toast_ids rest
  end.
End ToastIdentifiers.

(** Every request succeeds: the mutations answer with the given note as their
    message, the template query with the given blob. *)
Definition api_answering (note : option string) (blob : string)
    : ExpensesApi (H := demo) := {|
  useGetAllExpensesQuery := no_expenses _;
  useGetExpenseByIdQuery := fun _ => no_expenses _;
  useCreateExpenseMutation :=
    (fun _ => Fulfilled {| Response.data := 1; Response.message := note |}, idle);
  useUpdateExpenseMutation :=
    (fun _ => Fulfilled {| Response.data := 2; Response.message := note |}, idle);
  useDeleteExpensesMutation :=
    (fun _ => Fulfilled {| Response.data := 3; Response.message := note |}, idle);
  useImportExpensesMutation :=
    (fun _ => Fulfilled {| Response.data := 4; Response.message := note |}, idle);
  useLazyDownloadExpenseTemplateQuery :=
    (fun _ => Fulfilled blob, {| LazyQuery.isLoading := false |})
|}.

(** ** How each action runs *)

Section Runs.
Context `{Externals}.
Variable api : ExpensesApi.

Lemma skipn_past_prefix (A : Type) (w l : list A) : skipn (length w) (w ++ l) = l.
Proof. induction w as [|x w IH]; simpl; [reflexivity | exact IH]. Qed.

Lemma events_of_run {A} (m : Async A) (w : World) (evs : list Event) (r : Settled A) :
  m w = (w ++ evs, r) -> events_of m w = evs /\ result_of m w = r.
Proof.
  intros Hrun. unfold events_of, result_of. rewrite Hrun. simpl.
  split; [apply skipn_past_prefix | reflexivity].
Qed.

(** The shape the four mutation actions share. *)
Lemma toast_action_run {Res A} (req : Request) (settles : Settled Res) (f : Res -> A)
    (loading : string) (success : A -> string) (w : World) :
  (promise <- start (runAndHandleError
                       (response <- unwrap req settles ;; ret (f response))) ;;
   toast_promise promise loading success (fun err => err_message err) ;;
   await promise) w
  = (w ++ [ Sent req;
            Toast TLoading loading (S (length w));
            closing_toast success (handled f settles) (S (length w)) ],
     handled f settles).
Proof.
  unfold bind, start, runAndHandleError, try_catch, unwrap, ret, throw,
    toast_promise, toast_loading, toast_success, toast_error, emit, await, bind.
  destruct settles as [response | e]; simpl;
    rewrite length_app, Nat.add_comm, <- !app_assoc; reflexivity.
Qed.

Lemma onCreateExpense_run (data : CreateHotelExpenseDto) (w : World) :
  let settles := fst (useCreateExpenseMutation api) data in
  onCreateExpense api data w
  = (w ++ [ Sent (ReqCreate data);
            Toast TLoading "Creando gasto..." (S (length w));
            closing_toast (fun _ => "Gasto creado con éxito")
              (handled (@Response.data _) settles) (S (length w)) ],
     handled (@Response.data _) settles).
Proof. apply toast_action_run. Qed.

Lemma onUpdateExpense_run (id : string) (data : UpdateHotelExpenseDto) (w : World) :
  let arg := {| id := id; body := data |} in
  let settles := fst (useUpdateExpenseMutation api) arg in
  onUpdateExpense api id data w
  = (w ++ [ Sent (ReqUpdate arg);
            Toast TLoading "Actualizando gasto..." (S (length w));
            closing_toast (fun _ => "Gasto actualizado exitosamente")
              (handled (@Response.data _) settles) (S (length w)) ],
     handled (@Response.data _) settles).
Proof. apply toast_action_run. Qed.

Lemma onDeleteExpenses_run (ids : list string) (w : World) :
  let arg := {| ids := ids |} in
  let settles := fst (useDeleteExpensesMutation api) arg in
  onDeleteExpenses api ids w
  = (w ++ [ Sent (ReqDelete arg);
            Toast TLoading "Eliminando gastos..." (S (length w));
            closing_toast (fun _ => "Gastos eliminados con éxito")
              (handled (@Response.data _) settles) (S (length w)) ],
     handled (@Response.data _) settles).
Proof. apply toast_action_run. Qed.

Lemma onImportExpenses_run (file : File) (continueOnError : option bool) (w : World) :
  let arg := {| file := file;
                continueOnError := default_param false continueOnError |} in
  let settles := fst (useImportExpensesMutation api) arg in
  onImportExpenses api file continueOnError w
  = (w ++ [ Sent (ReqImport arg);
            Toast TLoading "Importando gastos..." (S (length w));
            closing_toast
              (fun data => or_else (Response.message data)
                             "Importación completada con éxito")
              (handled (fun response => response) settles) (S (length w)) ],
     handled (fun response => response) settles).
Proof. apply (toast_action_run _ _ (fun response => response)). Qed.

Lemma onDownloadTemplate_run (w : World) :
  onDownloadTemplate api w
  = match fst (useLazyDownloadExpenseTemplateQuery api) tt with
    | Fulfilled blob =>
        (w ++ Toast TLoading "Descargando plantilla..." (length w)
              :: Sent ReqDownloadTemplate
              :: map Dom (download_steps blob)
              ++ [Toast TSuccess "Plantilla descargada con éxito" (length w)],
         Fulfilled true)
    | Rejected e =>
        (w ++ [ Toast TLoading "Descargando plantilla..." (length w);
                Sent ReqDownloadTemplate;
                Toast TError ("Error al descargar: " ++ err_message e) (length w) ],
         Fulfilled false)
    end.
Proof.
  unfold onDownloadTemplate, downloadTemplate, bind, try_catch, unwrap, ret,
    toast_loading, toast_success, toast_error, dom, emit, bind.
  destruct (fst (useLazyDownloadExpenseTemplateQuery api) tt) as [blob | e]; simpl;
    rewrite <- !app_assoc; reflexivity.
Qed.
End Runs.

(** ** Reading the log of a run *)

Section Readings.
Context `{Externals}.

Lemma displayed_toast_action {A} (req : Request) (loading : string)
    (success : A -> string) (promise : Settled A) (n : nat) :
  displayed [Sent req; Toast TLoading loading n; closing_toast success promise n]
  = [ (TLoading, loading);
      match promise with
      | Fulfilled v => (TSuccess, success v)
      | Rejected e => (TError, err_message e)
      end ].
Proof. destruct promise; reflexivity. Qed.

Lemma requests_toast_action {A} (req : Request) (loading : string)
    (success : A -> string) (promise : Settled A) (n : nat) :
  requests_of [Sent req; Toast TLoading loading n; closing_toast success promise n]
  = [req].
Proof. destruct promise; reflexivity. Qed.

Lemma dom_ops_toast_action {A} (req : Request) (loading : string)
    (success : A -> string) (promise : Settled A) (n : nat) :
  dom_ops [Sent req; Toast TLoading loading n; closing_toast success promise n] = [].
Proof. destruct promise; reflexivity. Qed.

Lemma toast_action_only_awaits_and_toasts {A} (req : Request) (loading : string)
    (success : A -> string) (promise : Settled A) (n : nat) :
  let evs := [Sent req; Toast TLoading loading n; closing_toast success promise n] in
  await_and_toast_only evs /\ length evs = 3.
Proof. destruct promise; repeat split. Qed.
End Readings.

(** Rewrites a run of an action into its log and its outcome. *)
Ltac run_with lemma :=
  let Hevs := fresh "Hevs" in
  let Hres := fresh "Hres" in
  let Hrun := fresh "Hrun" in
  pose proof lemma as Hrun;
  cbv zeta in Hrun;
  apply events_of_run in Hrun;
  destruct Hrun as [Hevs Hres];
  rewrite ?Hevs, ?Hres.

(** ** Failures *)

(** C1, as stated, fails for [onDownloadTemplate]: when the template query
    fails with the error "boom", the promise of the action does not reject with
    it (it fulfils with [false]) and no error toast shows "boom" (the toast
    shows "Error al descargar: boom"). *)
Lemma download_failure_is_not_forwarded :
  fst (useLazyDownloadExpenseTemplateQuery (api_failing "boom")) tt = Rejected "boom" /\
  result_of (onDownloadTemplate (api_failing "boom")) [] = Fulfilled false /\
  displayed (events_of (onDownloadTemplate (api_failing "boom")) [])
    = [ (TLoading, "Descargando plantilla..."); (TError, "Error al descargar: boom") ] /\
  ~ forwards (onDownloadTemplate (api_failing "boom")) [] "boom".
Proof.
  repeat split.
  intros [Hrejects _]. vm_compute in Hrejects. discriminate Hrejects.
Qed.

(** C1, amended: when the underlying mutation of [onCreateExpense],
    [onUpdateExpense], [onDeleteExpenses] or [onImportExpenses] fails with [e],
    the returned promise rejects with the error [runAndHandleError] makes of
    [e] and the error toast shows the message of that same error; when the
    template query fails with [e], [onDownloadTemplate] fulfils with [false]
    and its error toast shows "Error al descargar: " followed by [e.message]. *)
Theorem failures_reach_toast_and_caller `{Externals} (api : ExpensesApi) (w : World) :
  (forall data e,
     fst (useCreateExpenseMutation api) data = Rejected e ->
     forwards (onCreateExpense api data) w (handleError e)) /\
  (forall id data e,
     fst (useUpdateExpenseMutation api) {| id := id; body := data |} = Rejected e ->
     forwards (onUpdateExpense api id data) w (handleError e)) /\
  (forall ids e,
     fst (useDeleteExpensesMutation api) {| ids := ids |} = Rejected e ->
     forwards (onDeleteExpenses api ids) w (handleError e)) /\
  (forall file continueOnError e,
     fst (useImportExpensesMutation api)
         {| file := file; continueOnError := default_param false continueOnError |}
       = Rejected e ->
     forwards (onImportExpenses api file continueOnError) w (handleError e)) /\
  (forall e,
     fst (useLazyDownloadExpenseTemplateQuery api) tt = Rejected e ->
     result_of (onDownloadTemplate api) w = Fulfilled false /\
     displayed (events_of (onDownloadTemplate api) w)
       = [ (TLoading, "Descargando plantilla...");
           (TError, ("Error al descargar: " ++ err_message e)%string) ]).
Proof.
  repeat apply conj.
  - intros data e Hfails. unfold forwards.
    run_with (onCreateExpense_run api data w).
    rewrite Hfails. simpl. auto.
  - intros id data e Hfails. unfold forwards.
    run_with (onUpdateExpense_run api id data w).
    rewrite Hfails. simpl. auto.
  - intros ids e Hfails. unfold forwards.
    run_with (onDeleteExpenses_run api ids w).
    rewrite Hfails. simpl. auto.
  - intros file continueOnError e Hfails. unfold forwards.
    run_with (onImportExpenses_run api file continueOnError w).
    rewrite Hfails. simpl. auto.
  - intros e Hfails.
    pose proof (onDownloadTemplate_run api w) as Hrun.
    rewrite Hfails in Hrun.
    run_with Hrun. split; reflexivity.
Qed.

(** The amended C1 at work: every request fails with "boom". *)
Lemma failures_reach_toast_and_caller_witness :
  forwards (onCreateExpense (api_failing "boom") "cena") [] "boom" /\
  forwards (onUpdateExpense (api_failing "boom") "g1" "cena") [] "boom" /\
  forwards (onDeleteExpenses (api_failing "boom") ["g1"; "g2"]) [] "boom" /\
  forwards (onImportExpenses (api_failing "boom") "gastos.xlsx" None) [] "boom" /\
  result_of (onDownloadTemplate (api_failing "boom")) [] = Fulfilled false.
Proof.
  destruct (failures_reach_toast_and_caller (api_failing "boom") [])
    as (Hcreate & Hupdate & Hdelete & Himport & Hdownload).
  refine (conj _ (conj _ (conj _ (conj _ _)))).
  - apply (Hcreate "cena" "boom"). reflexivity.
  - apply (Hupdate "g1" "cena" "boom"). reflexivity.
  - apply (Hdelete ["g1"; "g2"] "boom"). reflexivity.
  - apply (Himport "gastos.xlsx" None "boom"). reflexivity.
  - apply (Hdownload "boom"). reflexivity.
Defined.

(** ** One request, one closing toast *)

(** C2, as stated, fails for [onDownloadTemplate]: a successful download does
    more than await the request and show toasts, it drives the browser through
    the anchor-click download. *)
Lemma download_does_more_than_await_and_toast :
  dom_ops (events_of (onDownloadTemplate (api_ok None)) [])
    = [ CreateObjectURL "xlsx"; CreateElement "a"; SetHref "blob:xlsx";
        SetDownload "plantilla_gastos.xlsx"; AppendChild; Click;
        RevokeObjectURL "blob:xlsx"; Remove ] /\
  ~ await_and_toast_only (events_of (onDownloadTemplate (api_ok None)) []).
Proof.
  split; [reflexivity |].
  intros (_ & _ & Hquiet). vm_compute in Hquiet. discriminate Hquiet.
Qed.

(** C2, amended: one call of any action hands exactly one request to the
    underlying trigger and shows exactly one terminal toast, whether the
    request succeeds or fails.  A call of [onCreateExpense], [onUpdateExpense],
    [onDeleteExpenses] or [onImportExpenses] does nothing else: its log is the
    request, the loading toast and the terminal toast.  A call of
    [onDownloadTemplate] also runs the anchor-click download of the blob when
    the request succeeded, and touches the browser in no way when it failed. *)
Theorem one_request_one_terminal_toast `{Externals} (api : ExpensesApi) (w : World) :
  (forall data,
     let evs := events_of (onCreateExpense api data) w in
     await_and_toast_only evs /\ length evs = 3) /\
  (forall id data,
     let evs := events_of (onUpdateExpense api id data) w in
     await_and_toast_only evs /\ length evs = 3) /\
  (forall ids,
     let evs := events_of (onDeleteExpenses api ids) w in
     await_and_toast_only evs /\ length evs = 3) /\
  (forall file continueOnError,
     let evs := events_of (onImportExpenses api file continueOnError) w in
     await_and_toast_only evs /\ length evs = 3) /\
  (let evs := events_of (onDownloadTemplate api) w in
   length (requests_of evs) = 1 /\
   length (terminal_toasts evs) = 1 /\
   dom_ops evs = match fst (useLazyDownloadExpenseTemplateQuery api) tt with
                 | Fulfilled blob => download_steps blob
                 | Rejected _ => []
                 end).
Proof.
  refine (conj _ (conj _ (conj _ (conj _ _)))).
  - intros data evs. subst evs.
    run_with (onCreateExpense_run api data w).
    apply toast_action_only_awaits_and_toasts.
  - intros id data evs. subst evs.
    run_with (onUpdateExpense_run api id data w).
    apply toast_action_only_awaits_and_toasts.
  - intros ids evs. subst evs.
    run_with (onDeleteExpenses_run api ids w).
    apply toast_action_only_awaits_and_toasts.
  - intros file continueOnError evs. subst evs.
    run_with (onImportExpenses_run api file continueOnError w).
    apply toast_action_only_awaits_and_toasts.
  - intros evs. subst evs.
    pose proof (onDownloadTemplate_run api w) as Hrun.
    destruct (fst (useLazyDownloadExpenseTemplateQuery api) tt) as [blob | e];
      run_with Hrun; repeat split.
Qed.

(** ** The returned object *)

(** C3: the object [useExpenses] returns covers the seven operations.  The
    list query comes with its error, loading, success and refetch fields;
    [useGetExpenseById] answers with the query by id; the actions for create,
    update, delete, import and template download each hand the request of
    their operation to the generated trigger; and each of the four mutations
    shows a loading toast followed by one terminal toast. *)
Theorem useExpenses_covers_operations `{Externals} (api : ExpensesApi) (w : World) :
  let hook := useExpenses api in
  ( Hook.expensesList hook = Query.data (useGetAllExpensesQuery api) /\
    Hook.expensesError hook = Query.error (useGetAllExpensesQuery api) /\
    Hook.isLoadingExpenses hook = Query.isLoading (useGetAllExpensesQuery api) /\
    Hook.isSuccessExpenses hook = Query.isSuccess (useGetAllExpensesQuery api) /\
    Hook.refetchExpenses hook = Query.refetch (useGetAllExpensesQuery api) ) /\
  (forall id,
     ById.expense (Hook.useGetExpenseById hook id)
       = Query.data (useGetExpenseByIdQuery api id)) /\
  (forall data,
     let evs := events_of (Hook.onCreateExpense hook data) w in
     requests_of evs = [ReqCreate data] /\
     exists closing, is_terminal closing = true /\
       displayed evs = [(TLoading, "Creando gasto..."); closing]) /\
  (forall id data,
     let evs := events_of (Hook.onUpdateExpense hook id data) w in
     requests_of evs = [ReqUpdate {| id := id; body := data |}] /\
     exists closing, is_terminal closing = true /\
       displayed evs = [(TLoading, "Actualizando gasto..."); closing]) /\
  (forall ids,
     let evs := events_of (Hook.onDeleteExpenses hook ids) w in
     requests_of evs = [ReqDelete {| ids := ids |}] /\
     exists closing, is_terminal closing = true /\
       displayed evs = [(TLoading, "Eliminando gastos..."); closing]) /\
  (forall file continueOnError,
     let evs := events_of (Hook.onImportExpenses hook file continueOnError) w in
     requests_of evs
       = [ReqImport {| file := file;
                       continueOnError := default_param false continueOnError |}] /\
     exists closing, is_terminal closing = true /\
       displayed evs = [(TLoading, "Importando gastos..."); closing]) /\
  requests_of (events_of (Hook.onDownloadTemplate hook) w) = [ReqDownloadTemplate].
Proof.
  intros hook. subst hook. cbn [useExpenses Hook.expensesList Hook.expensesError
    Hook.isLoadingExpenses Hook.isSuccessExpenses Hook.refetchExpenses
    Hook.useGetExpenseById Hook.onCreateExpense Hook.onUpdateExpense
    Hook.onDeleteExpenses Hook.onImportExpenses Hook.onDownloadTemplate].
  refine (conj _ (conj _ (conj _ (conj _ (conj _ (conj _ _)))))).
  - repeat split.
  - intros id. reflexivity.
  - intros data. cbv zeta.
    run_with (onCreateExpense_run api data w).
    rewrite requests_toast_action, displayed_toast_action.
    split; [reflexivity |].
    destruct (handled _ _); eexists; (split; [| reflexivity]); reflexivity.
  - intros id data. cbv zeta.
    run_with (onUpdateExpense_run api id data w).
    rewrite requests_toast_action, displayed_toast_action.
    split; [reflexivity |].
    destruct (handled _ _); eexists; (split; [| reflexivity]); reflexivity.
  - intros ids. cbv zeta.
    run_with (onDeleteExpenses_run api ids w).
    rewrite requests_toast_action, displayed_toast_action.
    split; [reflexivity |].
    destruct (handled _ _); eexists; (split; [| reflexivity]); reflexivity.
  - intros file continueOnError. cbv zeta.
    run_with (onImportExpenses_run api file continueOnError w).
    rewrite requests_toast_action, displayed_toast_action.
    split; [reflexivity |].
    destruct (handled _ _); eexists; (split; [| reflexivity]); reflexivity.
  - pose proof (onDownloadTemplate_run api w) as Hrun.
    destruct (fst (useLazyDownloadExpenseTemplateQuery api) tt) as [blob | e];
      run_with Hrun; reflexivity.
Qed.

(** C4: [useExpenses] only renames fields of the generated hooks.  The list
    query's data, error, loading and success flags and refetch, the success
    and loading flags of the four mutations and the loading flag of the
    template query are returned as the generated hooks give them, and
    [useGetExpenseById id] is the data, loading flag and error of
    [useGetExpenseByIdQuery id] under the names expense, isLoading and error. *)
Theorem useExpenses_passes_fields_through `{Externals} (api : ExpensesApi) :
  let hook := useExpenses api in
  let list := useGetAllExpensesQuery api in
  Hook.expensesList hook = Query.data list /\
  Hook.expensesError hook = Query.error list /\
  Hook.isLoadingExpenses hook = Query.isLoading list /\
  Hook.isSuccessExpenses hook = Query.isSuccess list /\
  Hook.refetchExpenses hook = Query.refetch list /\
  Hook.isSuccessCreateExpense hook = Mutation.isSuccess (snd (useCreateExpenseMutation api)) /\
  Hook.isLoadingCreateExpense hook = Mutation.isLoading (snd (useCreateExpenseMutation api)) /\
  Hook.isSuccessUpdateExpense hook = Mutation.isSuccess (snd (useUpdateExpenseMutation api)) /\
  Hook.isLoadingUpdateExpense hook = Mutation.isLoading (snd (useUpdateExpenseMutation api)) /\
  Hook.isSuccessDeleteExpenses hook = Mutation.isSuccess (snd (useDeleteExpensesMutation api)) /\
  Hook.isLoadingDeleteExpenses hook = Mutation.isLoading (snd (useDeleteExpensesMutation api)) /\
  Hook.isSuccessImportExpenses hook = Mutation.isSuccess (snd (useImportExpensesMutation api)) /\
  Hook.isLoadingImportExpenses hook = Mutation.isLoading (snd (useImportExpensesMutation api)) /\
  Hook.isLoadingDownloadTemplate hook
    = LazyQuery.isLoading (snd (useLazyDownloadExpenseTemplateQuery api)) /\
  (forall id,
     let byId := Hook.useGetExpenseById hook id in
     let query := useGetExpenseByIdQuery api id in
     ById.expense byId = Query.data query /\
     ById.isLoading byId = Query.isLoading query /\
     ById.error byId = Query.error query).
Proof.
  intros hook list. subst hook list.
  repeat split.
Qed.

(** ** The toasts of the mutations *)

(** C5, as stated, fails for [onImportExpenses]: a response whose message is
    the empty string has a message, yet the success toast shows the fixed text
    "Importación completada con éxito" and not that message. *)
Lemma empty_import_message_is_replaced :
  fst (useImportExpensesMutation (api_ok (Some "")))
      {| file := "gastos.xlsx"; continueOnError := false |}
    = Fulfilled {| Response.data := 4; Response.message := Some "" |} /\
  displayed (events_of (onImportExpenses (api_ok (Some "")) "gastos.xlsx" None) [])
    = [ (TLoading, "Importando gastos...");
        (TSuccess, "Importación completada con éxito") ] /\
  ~ In (TSuccess,
        spec_import_success_text {| Response.data := 4; Response.message := Some "" |})
       (displayed (events_of (onImportExpenses (api_ok (Some "")) "gastos.xlsx" None) [])).
Proof.
  split; [reflexivity | split; [reflexivity |]].
  vm_compute. intros [Hloading | [Hsuccess | []]]; discriminate.
Qed.

(** C5, amended: a call of a mutation action displays its fixed loading toast
    and then one terminal toast.  [onCreateExpense] shows "Creando gasto..."
    then on success "Gasto creado con éxito"; [onUpdateExpense] shows
    "Actualizando gasto..." then on success "Gasto actualizado exitosamente";
    [onDeleteExpenses] shows "Eliminando gastos..." then on success "Gastos
    eliminados con éxito"; [onImportExpenses] shows "Importando gastos..." then
    on success the message of the response when that is a non-empty string,
    and "Importación completada con éxito" when the message is absent or
    empty; on failure each shows the message of the error its promise rejects
    with, the one [runAndHandleError] makes of the underlying error. *)
Theorem toasts_of_the_mutations `{Externals} (api : ExpensesApi) (w : World) :
  (forall data,
     displayed (events_of (onCreateExpense api data) w)
     = [ (TLoading, "Creando gasto...");
         match fst (useCreateExpenseMutation api) data with
         | Fulfilled _ => (TSuccess, "Gasto creado con éxito")
         | Rejected e => (TError, err_message (handleError e))
         end ]) /\
  (forall id data,
     displayed (events_of (onUpdateExpense api id data) w)
     = [ (TLoading, "Actualizando gasto...");
         match fst (useUpdateExpenseMutation api) {| id := id; body := data |} with
         | Fulfilled _ => (TSuccess, "Gasto actualizado exitosamente")
         | Rejected e => (TError, err_message (handleError e))
         end ]) /\
  (forall ids,
     displayed (events_of (onDeleteExpenses api ids) w)
     = [ (TLoading, "Eliminando gastos...");
         match fst (useDeleteExpensesMutation api) {| ids := ids |} with
         | Fulfilled _ => (TSuccess, "Gastos eliminados con éxito")
         | Rejected e => (TError, err_message (handleError e))
         end ]) /\
  (forall file continueOnError,
     displayed (events_of (onImportExpenses api file continueOnError) w)
     = [ (TLoading, "Importando gastos...");
         match fst (useImportExpensesMutation api)
                   {| file := file;
                      continueOnError := default_param false continueOnError |} with
         | Fulfilled response =>
             match Response.message response with
             | None => (TSuccess, "Importación completada con éxito")
             | Some EmptyString => (TSuccess, "Importación completada con éxito")
             | Some text => (TSuccess, text)
             end
         | Rejected e => (TError, err_message (handleError e))
         end ]).
Proof.
  refine (conj _ (conj _ (conj _ _))).
  - intros data.
    run_with (onCreateExpense_run api data w).
    rewrite displayed_toast_action.
    destruct (fst (useCreateExpenseMutation api) data); reflexivity.
  - intros id data.
    run_with (onUpdateExpense_run api id data w).
    rewrite displayed_toast_action.
    destruct (fst (useUpdateExpenseMutation api) _); reflexivity.
  - intros ids.
    run_with (onDeleteExpenses_run api ids w).
    rewrite displayed_toast_action.
    destruct (fst (useDeleteExpensesMutation api) _); reflexivity.
  - intros file continueOnError.
    run_with (onImportExpenses_run api file continueOnError w).
    rewrite displayed_toast_action.
    destruct (fst (useImportExpensesMutation api) _) as [response | e];
      [| reflexivity].
    simpl. unfold or_else.
    destruct (Response.message response) as [[| c text] |]; reflexivity.
Qed.

(** ** The payloads *)

(** C6: no action checks or changes its input.  Whatever the input and
    whatever the outcome, the one request of [onCreateExpense data] carries
    [data], that of [onUpdateExpense id data] carries [{ id, body: data }],
    that of [onDeleteExpenses ids] carries [{ ids }], the empty list included,
    and that of [onImportExpenses file continueOnError] carries
    [{ file, continueOnError }]. *)
Theorem payloads_reach_the_mutation_as_given `{Externals} (api : ExpensesApi) (w : World) :
  (forall data,
     requests_of (events_of (onCreateExpense api data) w) = [ReqCreate data]) /\
  (forall id data,
     requests_of (events_of (onUpdateExpense api id data) w)
     = [ReqUpdate {| id := id; body := data |}]) /\
  (forall ids,
     requests_of (events_of (onDeleteExpenses api ids) w)
     = [ReqDelete {| ids := ids |}]) /\
  requests_of (events_of (onDeleteExpenses api []) w) = [ReqDelete {| ids := [] |}] /\
  (forall file continueOnError,
     requests_of (events_of (onImportExpenses api file (Some continueOnError)) w)
     = [ReqImport {| file := file; continueOnError := continueOnError |}]).
Proof.
  refine (conj _ (conj _ (conj _ (conj _ _)))).
  - intros data.
    run_with (onCreateExpense_run api data w). apply requests_toast_action.
  - intros id data.
    run_with (onUpdateExpense_run api id data w). apply requests_toast_action.
  - intros ids.
    run_with (onDeleteExpenses_run api ids w). apply requests_toast_action.
  - run_with (onDeleteExpenses_run api [] w). apply requests_toast_action.
  - intros file continueOnError.
    run_with (onImportExpenses_run api file (Some continueOnError) w).
    apply requests_toast_action.
Qed.

(** C9: called with a file and no second argument, [onImportExpenses] hands
    the import mutation [continueOnError] equal to [false]. *)
Theorem import_defaults_to_stopping_on_error `{Externals} (api : ExpensesApi)
    (file : File) (w : World) :
  requests_of (events_of (onImportExpenses api file None) w)
  = [ReqImport {| file := file; continueOnError := false |}].
Proof.
  run_with (onImportExpenses_run api file None w). apply requests_toast_action.
Qed.

(** ** No state of its own *)

(** C7: an action keeps nothing between calls.  Take two calls of the same
    action with the same input, after any two histories and with the generated
    hooks in any two states: when the underlying trigger settles the same way
    in both, both calls return the same value, hand over the same request and
    show the same toasts. *)
Theorem actions_keep_no_state `{Externals} (api1 api2 : ExpensesApi) (w1 w2 : World) :
  (forall data,
     fst (useCreateExpenseMutation api1) data = fst (useCreateExpenseMutation api2) data ->
     observed (onCreateExpense api1 data) w1 = observed (onCreateExpense api2 data) w2) /\
  (forall id data,
     fst (useUpdateExpenseMutation api1) {| id := id; body := data |}
       = fst (useUpdateExpenseMutation api2) {| id := id; body := data |} ->
     observed (onUpdateExpense api1 id data) w1 = observed (onUpdateExpense api2 id data) w2) /\
  (forall ids,
     fst (useDeleteExpensesMutation api1) {| ids := ids |}
       = fst (useDeleteExpensesMutation api2) {| ids := ids |} ->
     observed (onDeleteExpenses api1 ids) w1 = observed (onDeleteExpenses api2 ids) w2) /\
  (forall file continueOnError,
     fst (useImportExpensesMutation api1)
         {| file := file; continueOnError := default_param false continueOnError |}
       = fst (useImportExpensesMutation api2)
             {| file := file; continueOnError := default_param false continueOnError |} ->
     observed (onImportExpenses api1 file continueOnError) w1
       = observed (onImportExpenses api2 file continueOnError) w2) /\
  (fst (useLazyDownloadExpenseTemplateQuery api1) tt
     = fst (useLazyDownloadExpenseTemplateQuery api2) tt ->
   observed (onDownloadTemplate api1) w1 = observed (onDownloadTemplate api2) w2).
Proof.
  refine (conj _ (conj _ (conj _ (conj _ _)))).
  - intros data Hsame. unfold observed.
    run_with (onCreateExpense_run api1 data w1).
    run_with (onCreateExpense_run api2 data w2).
    rewrite !requests_toast_action, !displayed_toast_action, !dom_ops_toast_action.
    rewrite Hsame. reflexivity.
  - intros id data Hsame. unfold observed.
    run_with (onUpdateExpense_run api1 id data w1).
    run_with (onUpdateExpense_run api2 id data w2).
    rewrite !requests_toast_action, !displayed_toast_action, !dom_ops_toast_action.
    rewrite Hsame. reflexivity.
  - intros ids Hsame. unfold observed.
    run_with (onDeleteExpenses_run api1 ids w1).
    run_with (onDeleteExpenses_run api2 ids w2).
    rewrite !requests_toast_action, !displayed_toast_action, !dom_ops_toast_action.
    rewrite Hsame. reflexivity.
  - intros file continueOnError Hsame. unfold observed.
    run_with (onImportExpenses_run api1 file continueOnError w1).
    run_with (onImportExpenses_run api2 file continueOnError w2).
    rewrite !requests_toast_action, !displayed_toast_action, !dom_ops_toast_action.
    rewrite Hsame. reflexivity.
  - intros Hsame. unfold observed.
    pose proof (onDownloadTemplate_run api1 w1) as Hrun1.
    pose proof (onDownloadTemplate_run api2 w2) as Hrun2.
    rewrite Hsame in Hrun1.
    destruct (fst (useLazyDownloadExpenseTemplateQuery api2) tt) as [blob | e];
      run_with Hrun1; run_with Hrun2; reflexivity.
Qed.

(** C7 at work: a first call on an empty log with idle hooks, a second one
    after other events, with every hook reporting a request in flight. *)
Lemma actions_keep_no_state_witness :
  observed (onCreateExpense (api_ok None) "cena") []
    = observed (onCreateExpense (api_ok_busy None) "cena") [Dom Click] /\
  observed (onUpdateExpense (api_ok None) "g1" "cena") []
    = observed (onUpdateExpense (api_ok_busy None) "g1" "cena") [Dom Click] /\
  observed (onDeleteExpenses (api_ok None) ["g1"]) []
    = observed (onDeleteExpenses (api_ok_busy None) ["g1"]) [Dom Click] /\
  observed (onImportExpenses (api_ok None) "gastos.xlsx" (Some true)) []
    = observed (onImportExpenses (api_ok_busy None) "gastos.xlsx" (Some true)) [Dom Click] /\
  observed (onDownloadTemplate (api_ok None)) []
    = observed (onDownloadTemplate (api_ok_busy None)) [Dom Click].
Proof.
  destruct (actions_keep_no_state (api_ok None) (api_ok_busy None) [] [Dom Click])
    as (Hcreate & Hupdate & Hdelete & Himport & Hdownload).
  refine (conj _ (conj _ (conj _ (conj _ _)))).
  - apply Hcreate. reflexivity.
  - apply Hupdate. reflexivity.
  - apply Hdelete. reflexivity.
  - apply Himport. reflexivity.
  - apply Hdownload. reflexivity.
Defined.

(** ** What the caller gets back *)

(** C8: [onDownloadTemplate] never rejects.  It fulfils with [true] when the
    template query succeeds and with [false] when it fails, the error being
    shown in a toast and nothing more; the promises of [onCreateExpense],
    [onUpdateExpense], [onDeleteExpenses] and [onImportExpenses] reject when
    their mutation fails, with the error [runAndHandleError] hands on. *)
Theorem download_never_rejects `{Externals} (api : ExpensesApi) (w : World) :
  result_of (onDownloadTemplate api) w
    = Fulfilled match fst (useLazyDownloadExpenseTemplateQuery api) tt with
                | Fulfilled _ => true
                | Rejected _ => false
                end /\
  (forall e,
     fst (useLazyDownloadExpenseTemplateQuery api) tt = Rejected e ->
     events_of (onDownloadTemplate api) w
     = [ Toast TLoading "Descargando plantilla..." (length w);
         Sent ReqDownloadTemplate;
         Toast TError ("Error al descargar: " ++ err_message e) (length w) ]) /\
  (forall data e,
     fst (useCreateExpenseMutation api) data = Rejected e ->
     result_of (onCreateExpense api data) w = Rejected (handleError e)) /\
  (forall id data e,
     fst (useUpdateExpenseMutation api) {| id := id; body := data |} = Rejected e ->
     result_of (onUpdateExpense api id data) w = Rejected (handleError e)) /\
  (forall ids e,
     fst (useDeleteExpensesMutation api) {| ids := ids |} = Rejected e ->
     result_of (onDeleteExpenses api ids) w = Rejected (handleError e)) /\
  (forall file continueOnError e,
     fst (useImportExpensesMutation api)
         {| file := file; continueOnError := default_param false continueOnError |}
       = Rejected e ->
     result_of (onImportExpenses api file continueOnError) w = Rejected (handleError e)).
Proof.
  refine (conj _ (conj _ (conj _ (conj _ (conj _ _))))).
  - pose proof (onDownloadTemplate_run api w) as Hrun.
    destruct (fst (useLazyDownloadExpenseTemplateQuery api) tt) as [blob | e];
      run_with Hrun; reflexivity.
  - intros e Hfails.
    pose proof (onDownloadTemplate_run api w) as Hrun.
    rewrite Hfails in Hrun. run_with Hrun. reflexivity.
  - intros data e Hfails.
    run_with (onCreateExpense_run api data w).
    rewrite Hfails. reflexivity.
  - intros id data e Hfails.
    run_with (onUpdateExpense_run api id data w).
    rewrite Hfails. reflexivity.
  - intros ids e Hfails.
    run_with (onDeleteExpenses_run api ids w).
    rewrite Hfails. reflexivity.
  - intros file continueOnError e Hfails.
    run_with (onImportExpenses_run api file continueOnError w).
    rewrite Hfails. reflexivity.
Qed.

(** C8 at work: every request fails with "sin red". *)
Lemma download_never_rejects_witness :
  result_of (onDownloadTemplate (api_failing "sin red")) [] = Fulfilled false /\
  events_of (onDownloadTemplate (api_failing "sin red")) []
    = [ Toast TLoading "Descargando plantilla..." 0;
        Sent ReqDownloadTemplate;
        Toast TError "Error al descargar: sin red" 0 ] /\
  result_of (onCreateExpense (api_failing "sin red") "cena") [] = Rejected "sin red" /\
  result_of (onUpdateExpense (api_failing "sin red") "g1" "cena") [] = Rejected "sin red" /\
  result_of (onDeleteExpenses (api_failing "sin red") []) [] = Rejected "sin red" /\
  result_of (onImportExpenses (api_failing "sin red") "gastos.xlsx" None) [] = Rejected "sin red".
Proof.
  destruct (download_never_rejects (api_failing "sin red") [])
    as (Hdownload & Htoast & Hcreate & Hupdate & Hdelete & Himport).
  refine (conj _ (conj _ (conj _ (conj _ (conj _ _))))).
  - exact Hdownload.
  - apply (Htoast "sin red"). reflexivity.
  - apply (Hcreate "cena" "sin red"). reflexivity.
  - apply (Hupdate "g1" "cena" "sin red"). reflexivity.
  - apply (Hdelete [] "sin red"). reflexivity.
  - apply (Himport "gastos.xlsx" None "sin red"). reflexivity.
Defined.

(** C10: on success [onCreateExpense], [onUpdateExpense] and
    [onDeleteExpenses] resolve with the [data] field of the response, and
    [onImportExpenses] resolves with the whole response, message included. *)
Theorem values_on_success `{Externals} (api : ExpensesApi) (w : World) :
  (forall data response,
     fst (useCreateExpenseMutation api) data = Fulfilled response ->
     result_of (onCreateExpense api data) w = Fulfilled (Response.data response)) /\
  (forall id data response,
     fst (useUpdateExpenseMutation api) {| id := id; body := data |} = Fulfilled response ->
     result_of (onUpdateExpense api id data) w = Fulfilled (Response.data response)) /\
  (forall ids response,
     fst (useDeleteExpensesMutation api) {| ids := ids |} = Fulfilled response ->
     result_of (onDeleteExpenses api ids) w = Fulfilled (Response.data response)) /\
  (forall file continueOnError response,
     fst (useImportExpensesMutation api)
         {| file := file; continueOnError := default_param false continueOnError |}
       = Fulfilled response ->
     result_of (onImportExpenses api file continueOnError) w = Fulfilled response).
Proof.
  refine (conj _ (conj _ (conj _ _))).
  - intros data response Hsucceeds.
    run_with (onCreateExpense_run api data w).
    rewrite Hsucceeds. reflexivity.
  - intros id data response Hsucceeds.
    run_with (onUpdateExpense_run api id data w).
    rewrite Hsucceeds. reflexivity.
  - intros ids response Hsucceeds.
    run_with (onDeleteExpenses_run api ids w).
    rewrite Hsucceeds. reflexivity.
  - intros file continueOnError response Hsucceeds.
    run_with (onImportExpenses_run api file continueOnError w).
    rewrite Hsucceeds. reflexivity.
Qed.

(** C10 at work: the server answers each mutation with a numbered payload and
    the import with the message "3 gastos importados". *)
Lemma values_on_success_witness :
  result_of (onCreateExpense (api_ok (Some "3 gastos importados")) "cena") []
    = Fulfilled 1 /\
  result_of (onUpdateExpense (api_ok (Some "3 gastos importados")) "g1" "cena") []
    = Fulfilled 2 /\
  result_of (onDeleteExpenses (api_ok (Some "3 gastos importados")) ["g1"]) []
    = Fulfilled 3 /\
  result_of (onImportExpenses (api_ok (Some "3 gastos importados")) "gastos.xlsx" None) []
    = Fulfilled {| Response.data := 4; Response.message := Some "3 gastos importados" |}.
Proof.
  destruct (values_on_success (api_ok (Some "3 gastos importados")) [])
    as (Hcreate & Hupdate & Hdelete & Himport).
  refine (conj _ (conj _ (conj _ _))).
  - apply (Hcreate "cena" {| Response.data := 1; Response.message := Some "creado" |}).
    reflexivity.
  - apply (Hupdate "g1" "cena"
             {| Response.data := 2; Response.message := Some "actualizado" |}).
    reflexivity.
  - apply (Hdelete ["g1"] {| Response.data := 3; Response.message := Some "eliminados" |}).
    reflexivity.
  - apply (Himport "gastos.xlsx" None
             {| Response.data := 4; Response.message := Some "3 gastos importados" |}).
    reflexivity.
Defined.

(** ** Further properties of the actions *)

Section Logs.
Context `{Externals}.




Lemma or_else_not_empty (m : option string) (fallback : string) :
  fallback <> "" -> or_else m fallback <> "".
Proof.
  intros Hfallback. destruct m as [[| c text] |]; simpl;
    [exact Hfallback | discriminate | exact Hfallback].
Qed.
End Logs.

(** X1: the toast agrees with what the caller gets.  After the loading toast
    a mutation action shows its success toast exactly when its promise
    fulfils, and otherwise an error toast with the message of the very error
    the promise rejects with; the download shows its success toast exactly
    when it returns [true] and an error toast exactly when it returns
    [false]. *)
Theorem toast_agrees_with_outcome `{Externals} (api : ExpensesApi) (w : World) :
  (forall data,
     displayed (events_of (onCreateExpense api data) w)
     = [ (TLoading, "Creando gasto...");
         match result_of (onCreateExpense api data) w with
         | Fulfilled _ => (TSuccess, "Gasto creado con éxito")
         | Rejected err => (TError, err_message err)
         end ]) /\
  (forall id data,
     displayed (events_of (onUpdateExpense api id data) w)
     = [ (TLoading, "Actualizando gasto...");
         match result_of (onUpdateExpense api id data) w with
         | Fulfilled _ => (TSuccess, "Gasto actualizado exitosamente")
         | Rejected err => (TError, err_message err)
         end ]) /\
  (forall ids,
     displayed (events_of (onDeleteExpenses api ids) w)
     = [ (TLoading, "Eliminando gastos...");
         match result_of (onDeleteExpenses api ids) w with
         | Fulfilled _ => (TSuccess, "Gastos eliminados con éxito")
         | Rejected err => (TError, err_message err)
         end ]) /\
  (forall file continueOnError,
     displayed (events_of (onImportExpenses api file continueOnError) w)
     = [ (TLoading, "Importando gastos...");
         match result_of (onImportExpenses api file continueOnError) w with
         | Fulfilled response =>
             (TSuccess,
              or_else (Response.message response) "Importación completada con éxito")
         | Rejected err => (TError, err_message err)
         end ]) /\
  (exists closing,
     displayed (events_of (onDownloadTemplate api) w)
       = [ (TLoading, "Descargando plantilla..."); closing ] /\
     (result_of (onDownloadTemplate api) w = Fulfilled true
      <-> closing = (TSuccess, "Plantilla descargada con éxito")) /\
     (result_of (onDownloadTemplate api) w = Fulfilled false
      <-> fst closing = TError)).
Proof.
  refine (conj _ (conj _ (conj _ (conj _ _)))).
  - intros data.
    run_with (onCreateExpense_run api data w).
    rewrite displayed_toast_action. destruct (handled _ _); reflexivity.
  - intros id data.
    run_with (onUpdateExpense_run api id data w).
    rewrite displayed_toast_action. destruct (handled _ _); reflexivity.
  - intros ids.
    run_with (onDeleteExpenses_run api ids w).
    rewrite displayed_toast_action. destruct (handled _ _); reflexivity.
  - intros file continueOnError.
    run_with (onImportExpenses_run api file continueOnError w).
    rewrite displayed_toast_action. destruct (handled _ _); reflexivity.
  - pose proof (onDownloadTemplate_run api w) as Hrun.
    destruct (fst (useLazyDownloadExpenseTemplateQuery api) tt) as [blob | e];
      run_with Hrun; eexists; (split; [reflexivity |]); simpl;
      split; split; intros Heq; try reflexivity; discriminate Heq.
Qed.

(** X3: no loading or success toast is ever blank.  Every toast of a mutation
    action other than its error toast has a non-empty text, the success toast
    of the import included, whatever message the server sends; and no toast of
    the download is blank, its error toast included, whatever the error. *)
Theorem toasts_are_not_blank `{Externals} (api : ExpensesApi) (w : World) :
  (forall data,
     Forall (fun t => fst t = TError \/ snd t <> "")
       (displayed (events_of (onCreateExpense api data) w))) /\
  (forall id data,
     Forall (fun t => fst t = TError \/ snd t <> "")
       (displayed (events_of (onUpdateExpense api id data) w))) /\
  (forall ids,
     Forall (fun t => fst t = TError \/ snd t <> "")
       (displayed (events_of (onDeleteExpenses api ids) w))) /\
  (forall file continueOnError,
     Forall (fun t => fst t = TError \/ snd t <> "")
       (displayed (events_of (onImportExpenses api file continueOnError) w))) /\
  Forall (fun t => snd t <> "") (displayed (events_of (onDownloadTemplate api) w)).
Proof.
  refine (conj _ (conj _ (conj _ (conj _ _)))).
  - intros data.
    run_with (onCreateExpense_run api data w).
    rewrite displayed_toast_action.
    destruct (handled _ _); repeat constructor; simpl; discriminate.
  - intros id data.
    run_with (onUpdateExpense_run api id data w).
    rewrite displayed_toast_action.
    destruct (handled _ _); repeat constructor; simpl; discriminate.
  - intros ids.
    run_with (onDeleteExpenses_run api ids w).
    rewrite displayed_toast_action.
    destruct (handled _ _); repeat constructor; simpl; discriminate.
  - intros file continueOnError.
    run_with (onImportExpenses_run api file continueOnError w).
    rewrite displayed_toast_action.
    destruct (handled _ _) as [response | err].
    + constructor; [right; simpl; discriminate |].
      constructor; [| constructor].
      right. simpl. apply or_else_not_empty. discriminate.
    + constructor; [right; simpl; discriminate |].
      constructor; [left; reflexivity | constructor].
  - pose proof (onDownloadTemplate_run api w) as Hrun.
    destruct (fst (useLazyDownloadExpenseTemplateQuery api) tt) as [blob | e];
      run_with Hrun; simpl; repeat constructor; simpl; discriminate.
Qed.

(** X2: what the server says on a successful create, update or delete never
    reaches the user.  Any two successful calls of the same action show the
    same toasts, whatever the payloads and the responses; and when the two
    responses carry the same [data], the callers get the same value, whatever
    the messages. *)
Theorem server_message_is_dropped `{Externals} (api1 api2 : ExpensesApi) (w1 w2 : World) :
  (forall data1 data2 r1 r2,
     fst (useCreateExpenseMutation api1) data1 = Fulfilled r1 ->
     fst (useCreateExpenseMutation api2) data2 = Fulfilled r2 ->
     displayed (events_of (onCreateExpense api1 data1) w1)
       = displayed (events_of (onCreateExpense api2 data2) w2) /\
     (Response.data r1 = Response.data r2 ->
      result_of (onCreateExpense api1 data1) w1
        = result_of (onCreateExpense api2 data2) w2)) /\
  (forall id1 id2 data1 data2 r1 r2,
     fst (useUpdateExpenseMutation api1) {| id := id1; body := data1 |} = Fulfilled r1 ->
     fst (useUpdateExpenseMutation api2) {| id := id2; body := data2 |} = Fulfilled r2 ->
     displayed (events_of (onUpdateExpense api1 id1 data1) w1)
       = displayed (events_of (onUpdateExpense api2 id2 data2) w2) /\
     (Response.data r1 = Response.data r2 ->
      result_of (onUpdateExpense api1 id1 data1) w1
        = result_of (onUpdateExpense api2 id2 data2) w2)) /\
  (forall ids1 ids2 r1 r2,
     fst (useDeleteExpensesMutation api1) {| ids := ids1 |} = Fulfilled r1 ->
     fst (useDeleteExpensesMutation api2) {| ids := ids2 |} = Fulfilled r2 ->
     displayed (events_of (onDeleteExpenses api1 ids1) w1)
       = displayed (events_of (onDeleteExpenses api2 ids2) w2) /\
     (Response.data r1 = Response.data r2 ->
      result_of (onDeleteExpenses api1 ids1) w1
        = result_of (onDeleteExpenses api2 ids2) w2)).
Proof.
  refine (conj _ (conj _ _)).
  - intros data1 data2 r1 r2 Hfirst Hsecond.
    run_with (onCreateExpense_run api1 data1 w1).
    run_with (onCreateExpense_run api2 data2 w2).
    rewrite !displayed_toast_action, Hfirst, Hsecond. simpl.
    split; [reflexivity | intros Hdata; rewrite Hdata; reflexivity].
  - intros id1 id2 data1 data2 r1 r2 Hfirst Hsecond.
    run_with (onUpdateExpense_run api1 id1 data1 w1).
    run_with (onUpdateExpense_run api2 id2 data2 w2).
    rewrite !displayed_toast_action, Hfirst, Hsecond. simpl.
    split; [reflexivity | intros Hdata; rewrite Hdata; reflexivity].
  - intros ids1 ids2 r1 r2 Hfirst Hsecond.
    run_with (onDeleteExpenses_run api1 ids1 w1).
    run_with (onDeleteExpenses_run api2 ids2 w2).
    rewrite !displayed_toast_action, Hfirst, Hsecond. simpl.
    split; [reflexivity | intros Hdata; rewrite Hdata; reflexivity].
Qed.

(** X2 at work: one server sends no message, the other "hecho", and the
    payloads differ. *)
Lemma server_message_is_dropped_witness :
  ( displayed (events_of (onCreateExpense (api_answering None "v1") "cena") [])
      = displayed (events_of (onCreateExpense (api_answering (Some "hecho") "v1") "taxi")
                     [Dom Click]) /\
    result_of (onCreateExpense (api_answering None "v1") "cena") []
      = result_of (onCreateExpense (api_answering (Some "hecho") "v1") "taxi") [Dom Click] ) /\
  ( displayed (events_of (onUpdateExpense (api_answering None "v1") "g1" "cena") [])
      = displayed (events_of (onUpdateExpense (api_answering (Some "hecho") "v1") "g2" "taxi")
                     [Dom Click]) /\
    result_of (onUpdateExpense (api_answering None "v1") "g1" "cena") []
      = result_of (onUpdateExpense (api_answering (Some "hecho") "v1") "g2" "taxi")
          [Dom Click] ) /\
  ( displayed (events_of (onDeleteExpenses (api_answering None "v1") ["g1"]) [])
      = displayed (events_of (onDeleteExpenses (api_answering (Some "hecho") "v1") [])
                     [Dom Click]) /\
    result_of (onDeleteExpenses (api_answering None "v1") ["g1"]) []
      = result_of (onDeleteExpenses (api_answering (Some "hecho") "v1") []) [Dom Click] ).
Proof.
  destruct (server_message_is_dropped (api_answering None "v1")
              (api_answering (Some "hecho") "v1") [] [Dom Click])
    as (Hcreate & Hupdate & Hdelete).
  refine (conj _ (conj _ _)).
  - destruct (Hcreate "cena" "taxi"
                {| Response.data := 1; Response.message := None |}
                {| Response.data := 1; Response.message := Some "hecho" |}
                eq_refl eq_refl) as [Htoasts Hvalue].
    split; [exact Htoasts | apply Hvalue; reflexivity].
  - destruct (Hupdate "g1" "g2" "cena" "taxi"
                {| Response.data := 2; Response.message := None |}
                {| Response.data := 2; Response.message := Some "hecho" |}
                eq_refl eq_refl) as [Htoasts Hvalue].
    split; [exact Htoasts | apply Hvalue; reflexivity].
  - destruct (Hdelete ["g1"] []
                {| Response.data := 3; Response.message := None |}
                {| Response.data := 3; Response.message := Some "hecho" |}
                eq_refl eq_refl) as [Htoasts Hvalue].
    split; [exact Htoasts | apply Hvalue; reflexivity].
Defined.

(** X4: the caller and the user of [onDownloadTemplate] learn nothing of the
    blob and, of an error, only its message.  Two successful downloads return
    the same value and show the same toasts whatever the blobs; two failed
    downloads whose errors have the same message are alike in all that is
    observed. *)
Theorem download_shows_only_the_message `{Externals} (api1 api2 : ExpensesApi)
    (w1 w2 : World) :
  (forall blob1 blob2,
     fst (useLazyDownloadExpenseTemplateQuery api1) tt = Fulfilled blob1 ->
     fst (useLazyDownloadExpenseTemplateQuery api2) tt = Fulfilled blob2 ->
     result_of (onDownloadTemplate api1) w1 = result_of (onDownloadTemplate api2) w2 /\
     displayed (events_of (onDownloadTemplate api1) w1)
       = displayed (events_of (onDownloadTemplate api2) w2)) /\
  (forall e1 e2,
     fst (useLazyDownloadExpenseTemplateQuery api1) tt = Rejected e1 ->
     fst (useLazyDownloadExpenseTemplateQuery api2) tt = Rejected e2 ->
     err_message e1 = err_message e2 ->
     observed (onDownloadTemplate api1) w1 = observed (onDownloadTemplate api2) w2).
Proof.
  split.
  - intros blob1 blob2 Hfirst Hsecond.
    pose proof (onDownloadTemplate_run api1 w1) as Hrun1.
    pose proof (onDownloadTemplate_run api2 w2) as Hrun2.
    rewrite Hfirst in Hrun1. rewrite Hsecond in Hrun2.
    run_with Hrun1. run_with Hrun2. split; reflexivity.
  - intros e1 e2 Hfirst Hsecond Hmessage. unfold observed.
    pose proof (onDownloadTemplate_run api1 w1) as Hrun1.
    pose proof (onDownloadTemplate_run api2 w2) as Hrun2.
    rewrite Hfirst in Hrun1. rewrite Hsecond in Hrun2.
    run_with Hrun1. run_with Hrun2. simpl. rewrite Hmessage. reflexivity.
Qed.

(** X4 at work: two templates, and twice the same failure. *)
Lemma download_shows_only_the_message_witness :
  ( result_of (onDownloadTemplate (api_answering None "v1")) []
      = result_of (onDownloadTemplate (api_answering None "v2")) [Dom Click] /\
    displayed (events_of (onDownloadTemplate (api_answering None "v1")) [])
      = displayed (events_of (onDownloadTemplate (api_answering None "v2")) [Dom Click]) ) /\
  observed (onDownloadTemplate (api_failing "sin red")) []
    = observed (onDownloadTemplate (api_failing "sin red")) [Dom Click].
Proof.
  split.
  - apply (proj1 (download_shows_only_the_message (api_answering None "v1")
                    (api_answering None "v2") [] [Dom Click]) "v1" "v2");
      reflexivity.
  - apply (proj2 (download_shows_only_the_message (api_failing "sin red")
                    (api_failing "sin red") [] [Dom Click]) "sin red" "sin red");
      reflexivity.
Defined.

(** ** Calls in a row *)

Section CallsInARow.
Context `{Externals}.
Variable api : ExpensesApi.


End CallsInARow.


(** X6: awaited one after the other, a failed mutation ends the sequence and
    a failed download does not.  When the mutation of [onCreateExpense],
    [onUpdateExpense], [onDeleteExpenses] or [onImportExpenses] fails, what
    follows the awaited call never starts: the log is that of the call alone
    and the sequence rejects with the error of the call.  What follows an
    awaited [onDownloadTemplate] always runs, on the log the download leaves,
    and is handed [true] or [false]. *)
Theorem awaited_failure_ends_the_sequence `{Externals} (api : ExpensesApi)
    (B : Type) (w : World) :
  (forall data e (next : CreateData -> Async B),
     fst (useCreateExpenseMutation api) data = Rejected e ->
     events_of (v <- onCreateExpense api data ;; next v) w
       = events_of (onCreateExpense api data) w /\
     result_of (v <- onCreateExpense api data ;; next v) w = Rejected (handleError e)) /\
  (forall id data e (next : UpdateData -> Async B),
     fst (useUpdateExpenseMutation api) {| id := id; body := data |} = Rejected e ->
     events_of (v <- onUpdateExpense api id data ;; next v) w
       = events_of (onUpdateExpense api id data) w /\
     result_of (v <- onUpdateExpense api id data ;; next v) w = Rejected (handleError e)) /\
  (forall ids e (next : DeleteData -> Async B),
     fst (useDeleteExpensesMutation api) {| ids := ids |} = Rejected e ->
     events_of (v <- onDeleteExpenses api ids ;; next v) w
       = events_of (onDeleteExpenses api ids) w /\
     result_of (v <- onDeleteExpenses api ids ;; next v) w = Rejected (handleError e)) /\
  (forall file continueOnError e (next : ApiResponse ImportData -> Async B),
     fst (useImportExpensesMutation api)
         {| file := file; continueOnError := default_param false continueOnError |}
       = Rejected e ->
     events_of (v <- onImportExpenses api file continueOnError ;; next v) w
       = events_of (onImportExpenses api file continueOnError) w /\
     result_of (v <- onImportExpenses api file continueOnError ;; next v) w
       = Rejected (handleError e)) /\
  (forall next : bool -> Async B,
     exists ok,
       result_of (onDownloadTemplate api) w = Fulfilled ok /\
       (v <- onDownloadTemplate api ;; next v) w
         = next ok (w ++ events_of (onDownloadTemplate api) w)).
Proof.
  refine (conj _ (conj _ (conj _ (conj _ _)))).
  - intros data e next Hfails.
    pose proof (onCreateExpense_run api data w) as Hrun. cbv zeta in Hrun.
    rewrite Hfails in Hrun.
    unfold events_of, result_of, bind. rewrite Hrun. split; reflexivity.
  - intros id data e next Hfails.
    pose proof (onUpdateExpense_run api id data w) as Hrun. cbv zeta in Hrun.
    rewrite Hfails in Hrun.
    unfold events_of, result_of, bind. rewrite Hrun. split; reflexivity.
  - intros ids e next Hfails.
    pose proof (onDeleteExpenses_run api ids w) as Hrun. cbv zeta in Hrun.
    rewrite Hfails in Hrun.
    unfold events_of, result_of, bind. rewrite Hrun. split; reflexivity.
  - intros file continueOnError e next Hfails.
    pose proof (onImportExpenses_run api file continueOnError w) as Hrun.
    cbv zeta in Hrun. rewrite Hfails in Hrun.
    unfold events_of, result_of, bind. rewrite Hrun. split; reflexivity.
  - intros next.
    pose proof (onDownloadTemplate_run api w) as Hrun.
    destruct (fst (useLazyDownloadExpenseTemplateQuery api) tt) as [blob | e];
      [exists true | exists false];
      unfold events_of, result_of, bind; rewrite Hrun; simpl;
      rewrite skipn_past_prefix; split; reflexivity.
Qed.

(** X6 at work: every request fails with "sin red", and a download is to
    follow each mutation. *)
Lemma awaited_failure_ends_the_sequence_witness :
  requests_of (events_of (_ <- onCreateExpense (api_failing "sin red") "cena" ;;
                          onDownloadTemplate (api_failing "sin red")) [])
    = [ReqCreate "cena"] /\
  requests_of (events_of (_ <- onUpdateExpense (api_failing "sin red") "g1" "cena" ;;
                          onDownloadTemplate (api_failing "sin red")) [])
    = [ReqUpdate {| id := "g1"; body := "cena" |}] /\
  requests_of (events_of (_ <- onDeleteExpenses (api_failing "sin red") ["g1"] ;;
                          onDownloadTemplate (api_failing "sin red")) [])
    = [ReqDelete {| ids := ["g1"] |}] /\
  requests_of (events_of (_ <- onImportExpenses (api_failing "sin red") "gastos.xlsx" None ;;
                          onDownloadTemplate (api_failing "sin red")) [])
    = [ReqImport {| file := "gastos.xlsx"; continueOnError := false |}].
Proof.
  destruct (awaited_failure_ends_the_sequence (api_failing "sin red") bool [])
    as (Hcreate & Hupdate & Hdelete & Himport & _).
  refine (conj _ (conj _ (conj _ _))).
  - rewrite (proj1 (Hcreate "cena" "sin red"
                      (fun _ => onDownloadTemplate (api_failing "sin red")) eq_refl)).
    reflexivity.
  - rewrite (proj1 (Hupdate "g1" "cena" "sin red"
                      (fun _ => onDownloadTemplate (api_failing "sin red")) eq_refl)).
    reflexivity.
  - rewrite (proj1 (Hdelete ["g1"] "sin red"
                      (fun _ => onDownloadTemplate (api_failing "sin red")) eq_refl)).
    reflexivity.
  - rewrite (proj1 (Himport "gastos.xlsx" None "sin red"
                      (fun _ => onDownloadTemplate (api_failing "sin red")) eq_refl)).
    reflexivity.
Defined.

(** X7: the download closes the toast it opened.  Both toasts of a call of
    [onDownloadTemplate] carry the identifier [toast.loading] returned, so the
    success or error toast takes the place of "Descargando plantilla..."
    whichever way the query ends, and the loading toast comes before the
    request. *)
Theorem download_closes_its_loading_toast `{Externals} (api : ExpensesApi) (w : World) :
  exists toastId,
    toast_ids (events_of (onDownloadTemplate api) w) = [toastId; toastId] /\
    (exists rest,
       events_of (onDownloadTemplate api) w
       = Toast TLoading "Descargando plantilla..." toastId
         :: Sent ReqDownloadTemplate :: rest) /\
    (exists before kind text,
       events_of (onDownloadTemplate api) w = before ++ [Toast kind text toastId] /\
       kind <> TLoading).
Proof.
  pose proof (onDownloadTemplate_run api w) as Hrun.
  exists (length w).
  destruct (fst (useLazyDownloadExpenseTemplateQuery api) tt) as [blob | e];
    run_with Hrun.
  - split; [reflexivity |]. split; [eexists; reflexivity |].
    exists (Toast TLoading "Descargando plantilla..." (length w)
            :: Sent ReqDownloadTemplate :: map Dom (download_steps blob)),
      TSuccess, "Plantilla descargada con éxito".
    split; [reflexivity | discriminate].
  - split; [reflexivity |]. split; [eexists; reflexivity |].
    exists [Toast TLoading "Descargando plantilla..." (length w); Sent ReqDownloadTemplate],
      TError, ("Error al descargar: " ++ err_message e)%string.
    split; [reflexivity | discriminate].
Qed.
